(** * Sampling + spreading integrated timeline (timeline_app.py)

    A shallow embedding of the rolling simulation of [timeline_app.py] and
    of the arithmetic that derives its two daily rates, together with the
    properties of the emitted daily table.

    The script computes with Python [float]s.  Everything below is written
    once over an abstract float arithmetic ([PyFloat]) and then read in two
    ways: over the rationals [Q] (exact arithmetic, used for the order
    properties) and over IEEE-754 binary64 as specified by [SpecFloat]
    (what CPython executes, used to replay concrete runs bit for bit). *)

From Stdlib Require Import ZArith QArith Bool List Lia Lqa SpecFloat.
Import ListNotations.

(** ** Python numbers *)

(** The operations of Python's [float] that the script uses.  [of_int] is
    the implicit [int -> float] conversion of mixed arithmetic. *)
Class PyFloat (F : Type) : Type := {
  of_int : Z -> F;
  fadd : F -> F -> F;
  fsub : F -> F -> F;
  fmul : F -> F -> F;
  fdiv : F -> F -> F;
  fltb : F -> F -> bool;
  fleb : F -> F -> bool;
  feqb : F -> F -> bool
}.

Declare Scope pyfloat_scope.
Delimit Scope pyfloat_scope with F.
Infix "+" := fadd : pyfloat_scope.
Infix "-" := fsub : pyfloat_scope.
Infix "*" := fmul : pyfloat_scope.
Infix "<?" := fltb (at level 70, no associativity) : pyfloat_scope.
Notation "a >? b" := (fltb b a) (at level 70, no associativity) : pyfloat_scope.
Notation "a >=? b" := (fleb b a) (at level 70, no associativity) : pyfloat_scope.
Infix "<=?" := fleb (at level 70, no associativity) : pyfloat_scope.
Infix "=?" := feqb (at level 70, no associativity) : pyfloat_scope.

Section Python.
Context {F : Type} `{PyFloat F}.
Local Open Scope pyfloat_scope.

(** The literal [0.0] (and the int [0] where it meets a float). *)
Definition f0 : F := of_int 0.

(** The literal [1e-9]: the float nearest to 10^-9, which is the
    correctly rounded quotient of the floats 1 and 10^9. *)
Definition f1e_9 : F := fdiv (of_int 1) (of_int 1000000000).

(** [min(a, b)]: the later argument wins only when strictly smaller. *)
Definition py_min (a b : F) : F := if b <? a then b else a.

(** [min(a, b, c)]. *)
Definition py_min3 (a b c : F) : F := py_min (py_min a b) c.

(** [max(a, b)]: the later argument wins only when strictly greater. *)
Definition py_max (a b : F) : F := if b >? a then b else a.

(** [a / b] on floats: ZeroDivisionError (here [None]) when [b] is zero. *)
Definition py_truediv (a b : F) : option F :=
  if b =? f0 then None else Some (fdiv a b).
End Python.

(** ** The simulation *)

Set Implicit Arguments.

(** The module-level inputs read by the simulation loop.  Dates are
    proleptic ordinals, so [start_date + timedelta(days=d)] is an addition. *)
Record Config (F : Type) : Type := {
  total_area_ha : F;
  effective_sampling_ha_per_workday : F;
  spreading_ha_per_workday : F;
  workdays_per_week : Z;
  spreading_lag_days : Z;
  start_date : Z;
  max_sim_days : Z
}.

(** One dict appended to [rows]. *)
Record Row (F : Type) : Type := {
  day : Z;
  date : Z;
  workday : bool;
  sampled_today_ha : F;
  spread_today_ha : F;
  sampled_cum_ha : F;
  spread_cum_ha : F;
  backlog_ha : F
}.

(** The variables the loop mutates. *)
Record State (F : Type) : Type := {
  rows : list (Row F);
  sampled_cum : F;
  spread_cum : F
}.

Unset Implicit Arguments.

(** [is_workday]: a repeating work week, day 0 is a workday.  Python's [%]
    with a positive modulus is the floor modulus, as [Z.modulo]. *)
Definition is_workday (day_index workdays_per_week_ : Z) : bool :=
  (day_index mod 7 <? workdays_per_week_)%Z.

(** [range(n)] *)
Definition py_range (n : Z) : list Z := map Z.of_nat (seq 0 (Z.to_nat n)).

(** [for d in ds: st = body(d, st); if <break>: break] *)
Fixpoint for_break {S : Type} (body : Z -> S -> S * bool) (ds : list Z) (st : S) : S :=
  match ds with
  | [] => st
  | d :: ds' =>
      let (st', brk) := body d st in
      if brk then st' else for_break body ds' st'
  end.

Section Simulation.
Context {F : Type} `{PyFloat F}.
Variable cfg : Config F.
Local Open Scope pyfloat_scope.

(** The stopping test of the loop and of the finish-date scans:
    [x >= total_area_ha - 1e-9]. *)
Definition reached (x : F) : bool := x >=? total_area_ha cfg - f1e_9.

(** Lines 119-122: sampling happens on workdays only.
    Returns [(sampled_today, sampled_cum)]. *)
Definition sampling_step (workday_ : bool) (sampled_cum_ : F) : F * F :=
  if workday_ && (sampled_cum_ <? total_area_ha cfg) then
    let sampled_today := py_min (effective_sampling_ha_per_workday cfg)
                                (total_area_ha cfg - sampled_cum_) in
    (sampled_today, sampled_cum_ + sampled_today)
  else (f0, sampled_cum_).

(** Lines 125-130: spreading happens on workdays only, and only after the
    lag days have passed.  [sampled_cum_] is the value left by the
    sampling step of the same day.  Returns [(spread_today, spread_cum)]. *)
Definition spreading_step (workday_ : bool) (d : Z) (sampled_cum_ spread_cum_ : F)
  : F * F :=
  if workday_ && (d >=? spreading_lag_days cfg)%Z then
    let ready_backlog := py_max (sampled_cum_ - spread_cum_) f0 in
    if (ready_backlog >? f0) && (spread_cum_ <? total_area_ha cfg) then
      let spread_today := py_min3 (spreading_ha_per_workday cfg) ready_backlog
                                  (total_area_ha cfg - spread_cum_) in
      (spread_today, spread_cum_ + spread_today)
    else (f0, spread_cum_)
  else (f0, spread_cum_).

(** Lines 115-149: one iteration; the boolean is the [break]. *)
Definition loop_body (d : Z) (st : State F) : State F * bool :=
  let current_date := (start_date cfg + d)%Z in
  let workday_ := is_workday d (workdays_per_week cfg) in
  let '(sampled_today, sampled_cum_) := sampling_step workday_ (sampled_cum st) in
  let '(spread_today, spread_cum_) :=
    spreading_step workday_ d sampled_cum_ (spread_cum st) in
  let backlog := py_max (sampled_cum_ - spread_cum_) f0 in
  let row := {| day := d;
                date := current_date;
                workday := workday_;
                sampled_today_ha := sampled_today;
                spread_today_ha := spread_today;
                sampled_cum_ha := sampled_cum_;
                spread_cum_ha := spread_cum_;
                backlog_ha := backlog |} in
  ({| rows := rows st ++ [row];
      sampled_cum := sampled_cum_;
      spread_cum := spread_cum_ |},
   reached spread_cum_).

(** Lines 110-112. *)
Definition initial : State F :=
  {| rows := []; sampled_cum := f0; spread_cum := f0 |}.

(** Lines 110-151: the table [df]. *)
Definition simulate : list (Row F) :=
  rows (for_break loop_body (py_range (max_sim_days cfg)) initial).

(** [df.loc[df[col] >= total_area_ha - 1e-9, "date"].iloc[0]] when the mask
    has [.any()], else [None]. *)
Definition first_reached (col : Row F -> F) (df : list (Row F)) : option Z :=
  match filter (fun r => reached (col r)) df with
  | [] => None
  | r :: _ => Some (date r)
  end.

(** Lines 159-166. *)
Definition sampling_finish_date : option Z :=
  first_reached (@sampled_cum_ha F) simulate.

Definition spreading_finish_date : option Z :=
  first_reached (@spread_cum_ha F) simulate.

End Simulation.

(** ** Derived rates *)

(** The values of the input widgets (lines 24-64). *)
Module Widgets.
Set Implicit Arguments.
Record t (F : Type) : Type := {
  total_area_ha : F;
  total_points : Z;
  sampling_people : Z;
  points_per_person_per_week : F;
  workdays_per_week : Z;
  sampling_contingency_pct : F;
  t_per_ha : F;
  tonnes_per_day : F;
  spreading_lag_days : Z;
  start_date : Z;
  max_sim_days : Z
}.
Unset Implicit Arguments.
End Widgets.

Declare Scope option_scope.
Notation "x <- e ;; k" :=
  (match e with Some x => k | None => None end)
  (at level 61, e at next level, right associativity) : option_scope.

(** The three guarded quotients, under the names the script gives them. *)
Module Rates.
Section Guarded.
Context {F : Type} `{PyFloat F}.
Local Open Scope pyfloat_scope.

(** Line 67: [(total_points / total_area_ha) if total_area_ha > 0 else 0.0] *)
Definition points_per_ha (total_points : Z) (total_area_ha : F) : option F :=
  if total_area_ha >? f0 then py_truediv (of_int total_points) total_area_ha
  else Some f0.

(** Lines 83-85:
    [effective_points_per_workday / points_per_ha if points_per_ha > 0 else 0.0] *)
Definition effective_sampling_ha_per_workday
    (effective_points_per_workday points_per_ha : F) : option F :=
  if points_per_ha >? f0 then py_truediv effective_points_per_workday points_per_ha
  else Some f0.

(** Line 88: [(tonnes_per_day / t_per_ha) if t_per_ha > 0 else 0.0] *)
Definition spreading_ha_per_workday (tonnes_per_day t_per_ha : F) : option F :=
  if t_per_ha >? f0 then py_truediv tonnes_per_day t_per_ha
  else Some f0.
End Guarded.
End Rates.

Section Derived.
Context {F : Type} `{PyFloat F}.
Local Open Scope pyfloat_scope.
Local Open Scope option_scope.

(** Lines 67-88, then the inputs of the simulation.  [None] is an uncaught
    ZeroDivisionError. *)
Definition derive (w : Widgets.t F) : option (Config F) :=
  points_per_ha <-
    Rates.points_per_ha (Widgets.total_points w) (Widgets.total_area_ha w) ;;
  let points_per_week_team :=
    of_int (Widgets.sampling_people w) * Widgets.points_per_person_per_week w in
  points_per_workday_team <-
    py_truediv points_per_week_team (of_int (Widgets.workdays_per_week w)) ;;
  contingency <- py_truediv (Widgets.sampling_contingency_pct w) (of_int 100) ;;
  let sampling_friction := of_int 1 + contingency in
  effective_points_per_workday <-
    py_truediv points_per_workday_team sampling_friction ;;
  sampling <-
    Rates.effective_sampling_ha_per_workday effective_points_per_workday points_per_ha ;;
  spreading <-
    Rates.spreading_ha_per_workday (Widgets.tonnes_per_day w) (Widgets.t_per_ha w) ;;
  Some {| total_area_ha := Widgets.total_area_ha w;
          effective_sampling_ha_per_workday := sampling;
          spreading_ha_per_workday := spreading;
          workdays_per_week := Widgets.workdays_per_week w;
          spreading_lag_days := Widgets.spreading_lag_days w;
          start_date := Widgets.start_date w;
          max_sim_days := Widgets.max_sim_days w |}.
End Derived.

(** ** Two readings of [float] *)

(** Exact rational arithmetic. *)
Definition Qlt_bool (x y : Q) : bool :=
  (Qnum x * QDen y <? Qnum y * QDen x)%Z.

#[export] Instance Q_float : PyFloat Q := {
  of_int := inject_Z;
  fadd := Qplus;
  fsub := Qminus;
  fmul := Qmult;
  fdiv := Qdiv;
  fltb := Qlt_bool;
  fleb := Qle_bool;
  feqb := Qeq_bool
}.

(** IEEE-754 binary64 with round-to-nearest-even, CPython's [float]. *)
Definition binary64 : Type := spec_float.

#[export] Instance b64_float : PyFloat binary64 := {
  of_int := fun z => binary_normalize 53 1024 z 0 false;
  fadd := SFadd 53 1024;
  fsub := SFsub 53 1024;
  fmul := SFmul 53 1024;
  fdiv := SFdiv 53 1024;
  fltb := SFltb;
  fleb := SFleb;
  feqb := SFeqb
}.

(** ** The table, day by day *)

Section Table.
Context {F : Type} `{PyFloat F}.
Variable cfg : Config F.
Local Open Scope pyfloat_scope.

(** The row the loop body appends on day [d], from the running totals it
    finds when the day starts. *)
Definition day_row (d : Z) (sampled_cum_ spread_cum_ : F) : Row F :=
  let workday_ := is_workday d (workdays_per_week cfg) in
  let sampling := sampling_step cfg workday_ sampled_cum_ in
  let spreading := spreading_step cfg workday_ d (snd sampling) spread_cum_ in
  {| day := d;
     date := (start_date cfg + d)%Z;
     workday := workday_;
     sampled_today_ha := fst sampling;
     spread_today_ha := fst spreading;
     sampled_cum_ha := snd sampling;
     spread_cum_ha := snd spreading;
     backlog_ha := py_max (snd sampling - snd spreading) f0 |}.

(** The rows appended over the days [ds], up to and including the first
    day that reaches the stopping test. *)
Fixpoint run (ds : list Z) (sampled_cum_ spread_cum_ : F) : list (Row F) :=
  match ds with
  | [] => []
  | d :: ds' =>
      let r := day_row d sampled_cum_ spread_cum_ in
      r :: (if reached cfg (spread_cum_ha r) then []
            else run ds' (sampled_cum_ha r) (spread_cum_ha r))
  end.
End Table.

(** The running total [col] as day [i] starts: [init] on day 0, else the
    value recorded on day [i - 1]. *)
Definition before {F : Type} (init : F) (col : Row F -> F) (df : list (Row F)) (i : nat)
  : F :=
  match i with
  | O => init
  | S j => match nth_error df j with Some r => col r | None => init end
  end.

(** ** Scenarios *)

(** 100 ha, sampling 20 ha and spreading 5 ha per workday, 7 workdays a
    week. *)
Definition scenario_B (F : Type) `{PyFloat F} (lag start maxd : Z) : Config F :=
  {| total_area_ha := of_int 100;
     effective_sampling_ha_per_workday := of_int 20;
     spreading_ha_per_workday := of_int 5;
     workdays_per_week := 7;
     spreading_lag_days := lag;
     start_date := start;
     max_sim_days := maxd |}.

(** No area at all, the other inputs at values the widgets offer. *)
Definition zero_area_example : Config Q :=
  {| total_area_ha := 0;
     effective_sampling_ha_per_workday := 20;
     spreading_ha_per_workday := 5;
     workdays_per_week := 5;
     spreading_lag_days := 1;
     start_date := 738000;
     max_sim_days := 365 |}.

(** ** What the guards rely on *)

(** The few facts about comparisons with zero behind the guards of the
    derived rates: a float that compares greater than zero is not a zero
    divisor, a float that is at most zero does not compare greater than
    zero, and [0.0] is neither negative nor a NaN (the one float that
    differs from itself). *)
Class PyFloatLaws (F : Type) `{PyFloat F} : Prop := {
  pos_nonzero : forall x : F, fltb f0 x = true -> feqb x f0 = false;
  nonpos_not_pos : forall x : F, fleb x f0 = true -> fltb f0 x = false;
  zero_not_neg : fltb (f0 : F) f0 = false;
  zero_not_nan : feqb (f0 : F) f0 = true
}.


(** ** Reading binary64 rows as rationals *)

(** The rational a finite binary64 denotes, in lowest terms. *)
Definition Q_of_b64 (x : binary64) : option Q :=
  match x with
  | S754_zero _ => Some 0
  | S754_finite s m e => Some (Qred (inject_Z (cond_Zopp s (Zpos m)) * 2 ^ e))
  | S754_infinity _ | S754_nan => None
  end.

Definition row_map {A B : Type} (f : A -> B) (r : Row A) : Row B :=
  {| day := day r;
     date := date r;
     workday := workday r;
     sampled_today_ha := f (sampled_today_ha r);
     spread_today_ha := f (spread_today_ha r);
     sampled_cum_ha := f (sampled_cum_ha r);
     spread_cum_ha := f (spread_cum_ha r);
     backlog_ha := f (backlog_ha r) |}.

(** ** More inputs and readings of the table *)


(** 100 ha at 10 ha per workday for both crews, five workdays a week. *)
Definition weekend_example : Config Q :=
  {| total_area_ha := 100;
     effective_sampling_ha_per_workday := 10;
     spreading_ha_per_workday := 10;
     workdays_per_week := 5;
     spreading_lag_days := 0;
     start_date := 738000;
     max_sim_days := 365 |}.


(** The seven days of week [k] of the repeating schedule. *)
Definition week (k : Z) : list Z :=
  map (fun j => (7 * k + j)%Z) [0; 1; 2; 3; 4; 5; 6]%Z.


(** Line 169: the "Days simulated" metric, [len(df)]. *)
Definition days_simulated {F : Type} `{PyFloat F} (cfg : Config F) : Z :=
  Z.of_nat (length (simulate cfg)).


(** The default inputs with no area to cover. *)
Definition zero_area_widgets : Widgets.t Q :=
  {| Widgets.total_area_ha := 0;
     Widgets.total_points := 13545;
     Widgets.sampling_people := 5;
     Widgets.points_per_person_per_week := 519;
     Widgets.workdays_per_week := 5;
     Widgets.sampling_contingency_pct := 10;
     Widgets.t_per_ha := 40;
     Widgets.tonnes_per_day := 80;
     Widgets.spreading_lag_days := 1;
     Widgets.start_date := 738000;
     Widgets.max_sim_days := 365 |}.

(** No area in binary64, the rates of scenario B. *)
Definition zero_area_binary64 : Config binary64 :=
  {| total_area_ha := f0;
     effective_sampling_ha_per_workday := of_int 20;
     spreading_ha_per_workday := of_int 5;
     workdays_per_week := 5;
     spreading_lag_days := 1;
     start_date := 738000;
     max_sim_days := 365 |}.


(** * Properties *)

(** ** The loop and its table *)

Section TableFacts.
Context {F : Type} `{PyFloat F}.
Variable cfg : Config F.

Lemma loop_body_row (d : Z) (st : State F) :
  loop_body cfg d st =
    (let r := day_row cfg d (sampled_cum st) (spread_cum st) in
     ({| rows := rows st ++ [r];
         sampled_cum := sampled_cum_ha r;
         spread_cum := spread_cum_ha r |},
      reached cfg (spread_cum_ha r))).
Proof.
  unfold loop_body, day_row.
  destruct (sampling_step cfg _ _) as [sampled_today s'].
  destruct (spreading_step cfg _ _ _ _) as [spread_today p'].
  reflexivity.
Qed.

Lemma for_break_run (ds : list Z) (st : State F) :
  rows (for_break (loop_body cfg) ds st) =
    rows st ++ run cfg ds (sampled_cum st) (spread_cum st).
Proof.
  revert st. induction ds as [|d ds IH]; intros st; simpl.
  - now rewrite app_nil_r.
  - rewrite loop_body_row. cbv zeta.
    destruct (reached cfg _); simpl.
    + reflexivity.
    + rewrite IH. simpl. now rewrite <- app_assoc.
Qed.

Lemma simulate_run :
  simulate cfg = run cfg (py_range (max_sim_days cfg)) f0 f0.
Proof. unfold simulate. now rewrite for_break_run. Qed.

Lemma run_length_le (ds : list Z) (s p : F) :
  (length (run cfg ds s p) <= length ds)%nat.
Proof.
  revert s p. induction ds as [|d ds IH]; intros s p; [simpl; lia|].
  cbn [run]. set (r := day_row cfg d s p).
  destruct (reached cfg (spread_cum_ha r)); cbn [length]; [lia|].
  specialize (IH (sampled_cum_ha r) (spread_cum_ha r)). lia.
Qed.

Lemma before_cons (init : F) (col : Row F -> F) (r0 : Row F) (l : list (Row F))
      (j : nat) :
  nth_error l j <> None ->
  before init col (r0 :: l) (S j) = before (col r0) col l j.
Proof.
  intros N. destruct j as [|k]; [reflexivity|]. cbn [before nth_error].
  destruct (nth_error l k) eqn:E; [reflexivity|].
  apply nth_error_None in E. apply nth_error_Some in N. lia.
Qed.

(** Every row of a run is the row of its day, computed from the totals
    recorded the day before. *)
Lemma run_nth_row (ds : list Z) (s p : F) (i : nat) (r : Row F) :
  nth_error (run cfg ds s p) i = Some r ->
  exists d, nth_error ds i = Some d /\
    r = day_row cfg d (before s (@sampled_cum_ha F) (run cfg ds s p) i)
                      (before p (@spread_cum_ha F) (run cfg ds s p) i).
Proof.
  revert s p i. induction ds as [|d ds IH]; intros s p i Hi.
  - destruct i; discriminate.
  - cbn [run] in *. set (r0 := day_row cfg d s p) in *.
    destruct i as [|j]; cbn [nth_error] in Hi.
    + exists d. split; [reflexivity|]. now inversion Hi.
    + destruct (reached cfg (spread_cum_ha r0)); [destruct j; discriminate|].
      destruct (IH _ _ _ Hi) as (d' & Hd & Hr).
      exists d'. split; [exact Hd|].
      rewrite !before_cons by (rewrite Hi; discriminate). exact Hr.
Qed.

(** A row that reaches the stopping test is the last one. *)
Lemma run_stop (ds : list Z) (s p : F) (i : nat) (r : Row F) :
  nth_error (run cfg ds s p) i = Some r ->
  reached cfg (spread_cum_ha r) = true ->
  length (run cfg ds s p) = S i.
Proof.
  revert s p i. induction ds as [|d ds IH]; intros s p i Hi Hr.
  - destruct i; discriminate.
  - cbn [run] in *. set (r0 := day_row cfg d s p) in *.
    destruct i as [|j]; cbn [nth_error] in Hi.
    + inversion Hi; subst r. now rewrite Hr.
    + destruct (reached cfg (spread_cum_ha r0)); [destruct j; discriminate|].
      cbn [length]. f_equal. now apply IH.
Qed.

(** A row that does not reach it is followed by the next day's row, if
    there is a next day. *)
Lemma run_continue (ds : list Z) (s p : F) (i : nat) (r : Row F) :
  nth_error (run cfg ds s p) i = Some r ->
  reached cfg (spread_cum_ha r) = false ->
  (S i < length ds)%nat ->
  (S i < length (run cfg ds s p))%nat.
Proof.
  revert s p i. induction ds as [|d ds IH]; intros s p i Hi Hr Hlen.
  - destruct i; discriminate.
  - cbn [run] in *. set (r0 := day_row cfg d s p) in *.
    destruct i as [|j]; cbn [nth_error] in Hi.
    + inversion Hi; subst r. rewrite Hr. cbn [length] in *.
      destruct ds as [|d' ds']; cbn [length] in *; [lia|].
      cbn [run length]. lia.
    + destruct (reached cfg (spread_cum_ha r0)); [destruct j; discriminate|].
      cbn [length] in *. apply -> Nat.succ_lt_mono. apply IH; [assumption..|lia].
Qed.

Lemma run_nonempty (ds : list Z) (s p : F) :
  ds <> [] -> run cfg ds s p <> [].
Proof. destruct ds; [congruence|discriminate]. Qed.

(** Once a run has stopped, further days change nothing. *)
Lemma run_app_stopped (ds ds' : list Z) (s p : F) :
  existsb (fun r => reached cfg (spread_cum_ha r)) (run cfg ds s p) = true ->
  run cfg (ds ++ ds') s p = run cfg ds s p.
Proof.
  revert s p. induction ds as [|d ds IH]; intros s p Hex; [discriminate|].
  cbn [run app] in *. set (r0 := day_row cfg d s p) in *.
  destruct (reached cfg (spread_cum_ha r0)) eqn:E; [reflexivity|].
  f_equal. apply IH. cbn [existsb] in Hex. now rewrite E in Hex.
Qed.

Lemma py_range_length (n : Z) : length (py_range n) = Z.to_nat n.
Proof. unfold py_range. now rewrite length_map, length_seq. Qed.

Lemma py_range_nth (n : Z) (i : nat) (d : Z) :
  nth_error (py_range n) i = Some d -> d = Z.of_nat i /\ (Z.of_nat i < n)%Z.
Proof.
  intros Hn.
  assert (i < length (py_range n))%nat as Hi
    by (apply nth_error_Some; rewrite Hn; discriminate).
  rewrite py_range_length in Hi. unfold py_range in Hn.
  rewrite nth_error_map, nth_error_seq in Hn.
  destruct (Nat.ltb_spec i (Z.to_nat n)); [|lia].
  simpl in Hn. inversion Hn. split; lia.
Qed.

Lemma py_range_app (n m : Z) :
  (0 <= n <= m)%Z ->
  py_range m = py_range n ++ map Z.of_nat (seq (Z.to_nat n) (Z.to_nat (m - n))).
Proof.
  intros Hnm. unfold py_range.
  replace (Z.to_nat m) with (Z.to_nat n + Z.to_nat (m - n))%nat by lia.
  now rewrite seq_app, map_app.
Qed.

(** The rows of the table, as the simulation emits them. *)
Lemma simulate_nth_row (i : nat) (r : Row F) :
  nth_error (simulate cfg) i = Some r ->
  (Z.of_nat i < max_sim_days cfg)%Z /\
  r = day_row cfg (Z.of_nat i)
        (before f0 (@sampled_cum_ha F) (simulate cfg) i)
        (before f0 (@spread_cum_ha F) (simulate cfg) i).
Proof.
  rewrite simulate_run. intros Hi.
  destruct (run_nth_row _ _ _ _ _ Hi) as (d & Hd & Hr).
  apply py_range_nth in Hd. destruct Hd as [-> Hlt]. now split.
Qed.
End TableFacts.

(** ** Properties that hold in every float arithmetic *)

Section AnyArithmetic.
Context {F : Type} `{PyFloat F}.
Local Open Scope pyfloat_scope.

Lemma day_row_day (cfg : Config F) (d : Z) (s p : F) :
  day (day_row cfg d s p) = d.
Proof. reflexivity. Qed.

Lemma simulate_length_le (cfg : Config F) :
  (length (simulate cfg) <= Z.to_nat (max_sim_days cfg))%nat.
Proof.
  rewrite simulate_run, <- py_range_length. apply run_length_le.
Qed.

Lemma simulate_last_reached (cfg : Config F) (i : nat) (r : Row F) :
  nth_error (simulate cfg) i = Some r ->
  reached cfg (spread_cum_ha r) = true ->
  length (simulate cfg) = S i.
Proof. rewrite simulate_run. apply run_stop. Qed.

Lemma simulate_nonempty (cfg : Config F) :
  (0 < max_sim_days cfg)%Z -> simulate cfg <> [].
Proof.
  intros Hmax. rewrite simulate_run. apply run_nonempty.
  intros E. apply (f_equal (@length Z)) in E.
  rewrite py_range_length in E. simpl in E. lia.
Qed.

Lemma simulate_full_length (cfg : Config F) :
  (forall r, In r (simulate cfg) -> reached cfg (spread_cum_ha r) = false) ->
  length (simulate cfg) = Z.to_nat (max_sim_days cfg).
Proof.
  intros Hno. pose proof (simulate_length_le cfg) as Hle.
  destruct (Nat.eq_dec (length (simulate cfg)) (Z.to_nat (max_sim_days cfg)))
    as [E|N]; [exact E|exfalso].
  destruct (Nat.eq_dec (length (simulate cfg)) 0) as [Z0|NZ].
  - apply length_zero_iff_nil in Z0.
    apply (simulate_nonempty cfg); [lia|exact Z0].
  - destruct (nth_error (simulate cfg) (pred (length (simulate cfg)))) as [r|] eqn:Hn.
    + pose proof (Hno r (nth_error_In _ _ Hn)) as Hr.
      revert Hn Hr N NZ Hle. rewrite simulate_run. intros Hn Hr N NZ Hle.
      pose proof (run_continue cfg _ _ _ _ _ Hn Hr) as C.
      rewrite py_range_length in C. lia.
    + apply nth_error_None in Hn. lia.
Qed.

(** C2. The table has at most [max_sim_days] rows, row [i] is day [i],
    and either the table ends with the first row whose spread total
    passes the stopping test [spread_cum >= total_area_ha - 1e-9] (that
    day's row is emitted, no later day is), or no row passes it and the
    table runs through day [max_sim_days - 1]. *)
Theorem simulate_stops_at_first_reached (cfg : Config F) :
  (Z.of_nat (length (simulate cfg)) <= Z.max 0 (max_sim_days cfg))%Z /\
  (forall i r, nth_error (simulate cfg) i = Some r -> day r = Z.of_nat i) /\
  ((exists i r,
       nth_error (simulate cfg) i = Some r /\
       reached cfg (spread_cum_ha r) = true /\
       length (simulate cfg) = S i /\
       forall j r', (j < i)%nat -> nth_error (simulate cfg) j = Some r' ->
                    reached cfg (spread_cum_ha r') = false)
   \/
   (Z.of_nat (length (simulate cfg)) = Z.max 0 (max_sim_days cfg) /\
    forall r, In r (simulate cfg) -> reached cfg (spread_cum_ha r) = false)).
Proof.
  split; [|split].
  - pose proof (simulate_length_le cfg). lia.
  - intros i r Hi. apply simulate_nth_row in Hi. destruct Hi as [_ ->].
    apply day_row_day.
  - destruct (existsb (fun r => reached cfg (spread_cum_ha r)) (simulate cfg)) eqn:E.
    + left. apply existsb_exists in E. destruct E as (r & Hin & Hr).
      apply In_nth_error in Hin. destruct Hin as [i Hi].
      exists i, r. repeat split; try assumption.
      * now apply simulate_last_reached with (r := r).
      * intros j r' Hj Hj'.
        destruct (reached cfg (spread_cum_ha r')) eqn:E'; [|reflexivity].
        pose proof (simulate_last_reached _ _ _ Hj' E').
        pose proof (simulate_last_reached _ _ _ Hi Hr). lia.
    + right.
      assert (forall r, In r (simulate cfg) -> reached cfg (spread_cum_ha r) = false)
        as Hno.
      { intros r Hin. destruct (reached cfg (spread_cum_ha r)) eqn:E'; [|reflexivity].
        assert (existsb (fun r => reached cfg (spread_cum_ha r)) (simulate cfg) = true)
          as T by (apply existsb_exists; eauto).
        congruence. }
      split; [|exact Hno]. rewrite (simulate_full_length _ Hno). lia.
Qed.

(** C4. On a workday [i] at or past the lag, the ready backlog is taken
    from the sampled total recorded on that same day, which is the total
    left by that day's own sampling step, and from the spread total of the
    day before; the area spread is the least of the spreading rate, that
    backlog and the area left to spread when the backlog is positive and
    area is left, and zero otherwise. *)
Theorem same_day_sampled_area_is_spreadable
    (cfg : Config F) (i : nat) (r : Row F) :
  nth_error (simulate cfg) i = Some r ->
  workday r = true ->
  (Z.of_nat i >= spreading_lag_days cfg)%Z ->
  let sampled_before := before f0 (@sampled_cum_ha F) (simulate cfg) i in
  let spread_before := before f0 (@spread_cum_ha F) (simulate cfg) i in
  let ready_backlog := py_max (sampled_cum_ha r - spread_before) f0 in
  (sampled_today_ha r, sampled_cum_ha r) = sampling_step cfg true sampled_before /\
  spread_today_ha r =
    (if (ready_backlog >? f0) && (spread_before <? total_area_ha cfg)
     then py_min3 (spreading_ha_per_workday cfg) ready_backlog
                  (total_area_ha cfg - spread_before)
     else f0) /\
  spread_cum_ha r =
    (if (ready_backlog >? f0) && (spread_before <? total_area_ha cfg)
     then spread_before + spread_today_ha r
     else spread_before).
Proof.
  intros Hi Hw Hlag. apply simulate_nth_row in Hi. destruct Hi as [_ Hr].
  cbv zeta. set (s := before f0 _ _ i) in *. set (p := before f0 _ _ i) in *.
  rewrite Hr in Hw |- *. unfold day_row in *. cbn [workday] in Hw.
  cbn [sampled_today_ha sampled_cum_ha spread_today_ha spread_cum_ha].
  rewrite Hw. split; [now destruct (sampling_step cfg true s)|].
  unfold spreading_step.
  assert ((Z.of_nat i >=? spreading_lag_days cfg)%Z = true) as -> by lia.
  cbn [andb].
  destruct (_ && _); split; reflexivity.
Qed.

(** C6. Before the lag has passed nothing is spread, whatever the
    backlog; with a lag of 0 the spreading step already runs on day 0,
    on the total sampled that very day. *)
Theorem lag_enforcement (cfg : Config F) :
  (forall i r,
      nth_error (simulate cfg) i = Some r ->
      (Z.of_nat i < spreading_lag_days cfg)%Z ->
      spread_today_ha r = f0) /\
  (spreading_lag_days cfg = 0%Z ->
   (0 < workdays_per_week cfg)%Z ->
   (0 < max_sim_days cfg)%Z ->
   exists r,
     nth_error (simulate cfg) 0 = Some r /\
     workday r = true /\
     (sampled_today_ha r, sampled_cum_ha r) = sampling_step cfg true f0 /\
     let ready_backlog := py_max (sampled_cum_ha r - f0) f0 in
     spread_today_ha r =
       if (ready_backlog >? f0) && (f0 <? total_area_ha cfg)
       then py_min3 (spreading_ha_per_workday cfg) ready_backlog
                    (total_area_ha cfg - f0)
       else f0).
Proof.
  split.
  - intros i r Hi Hlag. apply simulate_nth_row in Hi. destruct Hi as [_ ->].
    unfold day_row, spreading_step. cbn [spread_today_ha].
    assert ((Z.of_nat i >=? spreading_lag_days cfg)%Z = false) as -> by lia.
    now rewrite andb_false_r.
  - intros Hlag Hw Hmax.
    destruct (nth_error (simulate cfg) 0) as [r|] eqn:Hi.
    + exists r. split; [reflexivity|].
      assert (is_workday 0 (workdays_per_week cfg) = true) as Hwd
          by (unfold is_workday; apply Z.ltb_lt; exact Hw).
      apply simulate_nth_row in Hi. destruct Hi as [_ Hr].
      cbn [before] in Hr. rewrite Hr. unfold day_row.
      cbn [workday sampled_today_ha sampled_cum_ha spread_today_ha].
      change (Z.of_nat 0) with 0%Z. rewrite Hwd.
      split; [reflexivity|]. split; [now destruct (sampling_step cfg true f0)|].
      unfold spreading_step. rewrite Hlag. cbn [andb Z.geb Z.compare].
      now destruct (_ && _).
    + apply nth_error_None in Hi. apply Nat.le_0_r, length_zero_iff_nil in Hi.
      now apply simulate_nonempty in Hi.
Qed.

(** C7. [is_workday] is the test [d mod 7 < workdays_per_week], every row
    records it for its own day, and a row of a non-workday has nothing
    sampled and nothing spread. *)
Theorem non_workday_noop (cfg : Config F) :
  (forall d w : Z, is_workday d w = true <-> (d mod 7 < w)%Z) /\
  (forall i r,
      nth_error (simulate cfg) i = Some r ->
      workday r = is_workday (Z.of_nat i) (workdays_per_week cfg) /\
      (workday r = false -> sampled_today_ha r = f0 /\ spread_today_ha r = f0)).
Proof.
  split.
  - intros d w. unfold is_workday. apply Z.ltb_lt.
  - intros i r Hi. apply simulate_nth_row in Hi. destruct Hi as [_ ->].
    split; [reflexivity|]. unfold day_row. cbn [workday sampled_today_ha spread_today_ha].
    intros ->. split; reflexivity.
Qed.
End AnyArithmetic.

(** ** Order properties, in exact arithmetic *)

Section Exact.
Local Open Scope Q_scope.

Lemma Qlt_bool_iff (x y : Q) : Qlt_bool x y = true <-> x < y.
Proof. unfold Qlt_bool, Qlt. apply Z.ltb_lt. Qed.

Lemma Qlt_bool_false (x y : Q) : Qlt_bool x y = false <-> y <= x.
Proof. unfold Qlt_bool, Qle. rewrite Z.ltb_ge. reflexivity. Qed.

Lemma Qle_bool_false (x y : Q) : Qle_bool x y = false <-> y < x.
Proof.
  split; intros E.
  - apply Qnot_le_lt. intros L. apply Qle_bool_iff in L. congruence.
  - destruct (Qle_bool x y) eqn:L; [|reflexivity].
    apply Qle_bool_iff in L. lra.
Qed.




Variable cfg : Config Q.
Hypothesis sampling_nonneg : 0 <= effective_sampling_ha_per_workday cfg.
Hypothesis spreading_nonneg : 0 <= spreading_ha_per_workday cfg.





End Exact.

Local Open Scope Q_scope.



Lemma reached_exact (cfg : Config Q) (x : Q) :
  reached cfg x = true <-> total_area_ha cfg - (1 # 1000000000) <= x.
Proof. unfold reached. cbn [fleb fsub Q_float]. apply Qle_bool_iff. Qed.

Lemma zero_area_day_row (cfg : Config Q) (d : Z) :
  total_area_ha cfg == 0 ->
  day_row cfg d f0 f0 =
    {| day := d; date := (start_date cfg + d)%Z;
       workday := is_workday d (workdays_per_week cfg);
       sampled_today_ha := 0; spread_today_ha := 0;
       sampled_cum_ha := 0; spread_cum_ha := 0; backlog_ha := 0 |}.
Proof.
  intros HT. unfold day_row.
  assert (forall w, sampling_step cfg w f0 = (f0, f0)) as ->.
  { intros w. unfold sampling_step. cbn [fltb Q_float].
    assert (Qlt_bool f0 (total_area_ha cfg) = false) as ->
        by (apply Qlt_bool_false; rewrite HT; apply Qle_refl).
    now rewrite andb_false_r. }
  cbn [fst snd].
  assert (forall w, spreading_step cfg w d f0 f0 = (f0, f0)) as ->.
  { intros w. unfold spreading_step.
    destruct (w && (d >=? spreading_lag_days cfg)%Z); reflexivity. }
  reflexivity.
Qed.

(** C10. With a total area of zero and at least one simulated day, the
    table is the single row of day 0, with nothing sampled, nothing spread,
    both totals and the backlog zero; the stopping test already holds on
    that row, and both finish dates are the start date. *)
Theorem zero_area_single_row (cfg : Config Q) :
  total_area_ha cfg == 0 ->
  (1 <= max_sim_days cfg)%Z ->
  simulate cfg =
    [ {| day := 0; date := start_date cfg;
         workday := is_workday 0 (workdays_per_week cfg);
         sampled_today_ha := 0; spread_today_ha := 0;
         sampled_cum_ha := 0; spread_cum_ha := 0; backlog_ha := 0 |} ] /\
  reached cfg 0 = true /\
  sampling_finish_date cfg = Some (start_date cfg) /\
  spreading_finish_date cfg = Some (start_date cfg).
Proof.
  intros HT Hmax.
  assert (reached cfg 0 = true) as Hr by (apply reached_exact; rewrite HT; lra).
  assert (simulate cfg =
    [ {| day := 0; date := start_date cfg;
         workday := is_workday 0 (workdays_per_week cfg);
         sampled_today_ha := 0; spread_today_ha := 0;
         sampled_cum_ha := 0; spread_cum_ha := 0; backlog_ha := 0 |} ]) as Hdf.
  { rewrite simulate_run, (py_range_app 1 (max_sim_days cfg)) by lia.
    change (py_range 1) with [0%Z]. cbn [app run].
    rewrite (zero_area_day_row cfg 0 HT). cbn [spread_cum_ha].
    rewrite Hr, Z.add_0_r. reflexivity. }
  split; [exact Hdf|]. split; [exact Hr|].
  unfold sampling_finish_date, spreading_finish_date, first_reached.
  rewrite Hdf. cbn [filter sampled_cum_ha spread_cum_ha]. rewrite Hr.
  split; reflexivity.
Qed.

(** ** Scenarios *)

(** A run that stops within its first [n] days is the same for every
    larger cap. *)
Lemma simulate_capped {F : Type} `{PyFloat F} (cfg : Config F) (n : Z) :
  (0 <= n <= max_sim_days cfg)%Z ->
  existsb (fun r => reached cfg (spread_cum_ha r)) (run cfg (py_range n) f0 f0) = true ->
  simulate cfg = run cfg (py_range n) f0 f0.
Proof.
  intros Hn Hex.
  rewrite simulate_run, (py_range_app n (max_sim_days cfg)) by exact Hn.
  now apply run_app_stopped.
Qed.

Lemma scenario_B_table (lag start maxd : Z) :
  (23 <= maxd)%Z -> (lag = 0 \/ lag = 3)%Z ->
  simulate (scenario_B Q lag start maxd) =
    run (scenario_B Q lag start maxd) (py_range 23) f0 f0.
Proof.
  intros Hmax Hlag. apply simulate_capped; [cbn [max_sim_days scenario_B]; lia|].
  destruct Hlag as [-> | ->]; vm_compute; reflexivity.
Qed.

(** C3, as the code has it.  In scenario B sampling finishes on day 4 and
    spreading on day 19; spreading starts on day 0, so the backlog rises by
    15 a day to 75 (not 80) on day 4 and then falls by 5 a day to 0 on
    day 19. *)
Theorem scenario_B_outcome (start maxd : Z) :
  (20 <= maxd)%Z ->
  let cfg := scenario_B Q 0 start maxd in
  sampling_finish_date cfg = Some (start + 4)%Z /\
  spreading_finish_date cfg = Some (start + 19)%Z /\
  map (@backlog_ha Q) (simulate cfg) =
    [15; 30; 45; 60; 75; 70; 65; 60; 55; 50; 45; 40; 35; 30; 25; 20; 15; 10; 5; 0].
Proof.
  intros Hmax cfg.
  assert (simulate cfg = run cfg (py_range 20) f0 f0) as Hdf.
  { apply simulate_capped; [cbn [max_sim_days scenario_B cfg]; lia|].
    vm_compute; reflexivity. }
  unfold sampling_finish_date, spreading_finish_date. rewrite Hdf.
  refine (conj _ (conj _ _)); vm_compute; reflexivity.
Qed.

(** C3, as stated: the backlog of scenario B never is 80; on day 4 it is
    75. *)
Lemma scenario_B_backlog_never_80 :
  (exists r, nth_error (simulate (scenario_B Q 0 0 365)) 4 = Some r /\
             backlog_ha r == 75 /\ ~ backlog_ha r == 80) /\
  Forall (fun r => backlog_ha r < 80) (simulate (scenario_B Q 0 0 365)).
Proof.
  split.
  - eexists. split; [vm_compute; reflexivity|].
    split; [reflexivity|discriminate].
  - vm_compute. repeat constructor.
Qed.

(** C8. Scenario B run with a lag of 3 days spreads nothing on days 0, 1
    and 2, finishes spreading exactly 3 days later than with no lag, and
    finishes sampling on the same day. *)
Theorem scenario_C_lag_shift (start maxd : Z) :
  (23 <= maxd)%Z ->
  let no_lag := scenario_B Q 0 start maxd in
  let lag_3 := scenario_B Q 3 start maxd in
  map (@spread_today_ha Q) (firstn 3 (simulate lag_3)) = [0; 0; 0] /\
  spreading_finish_date no_lag = Some (start + 19)%Z /\
  spreading_finish_date lag_3 = Some (start + 19 + 3)%Z /\
  sampling_finish_date no_lag = Some (start + 4)%Z /\
  sampling_finish_date lag_3 = sampling_finish_date no_lag.
Proof.
  intros Hmax no_lag lag_3.
  unfold sampling_finish_date, spreading_finish_date, no_lag, lag_3.
  rewrite !scenario_B_table by (assumption || tauto).
  replace (start + 19 + 3)%Z with (start + 22)%Z by lia.
  refine (conj _ (conj _ (conj _ (conj _ _)))); vm_compute; reflexivity.
Qed.

(** ** The guards of the derived rates *)

#[export] Instance Q_laws : PyFloatLaws Q.
Proof.
  split; try reflexivity.
  - intros x Hx. apply Qlt_bool_iff in Hx.
    change (Qeq_bool x 0 = false).
    destruct (Qeq_bool x 0) eqn:E; [|reflexivity].
    apply Qeq_bool_iff in E. rewrite E in Hx. discriminate.
  - intros x Hx. apply Qle_bool_iff in Hx. now apply Qlt_bool_false.
Qed.

#[export] Instance b64_laws : PyFloatLaws binary64.
Proof.
  split; try reflexivity.
  - intros [s| s| |s m e]; try discriminate; destruct s; try discriminate; reflexivity.
  - intros [s| s| |s m e]; try reflexivity; destruct s; try discriminate; reflexivity.
Qed.

Section Guards.
Context {F : Type} `{PyFloatLaws F}.
Local Open Scope pyfloat_scope.

Lemma guarded_truediv (a b : F) :
  (if b >? f0 then py_truediv a b else Some f0) <> None.
Proof.
  destruct (b >? f0) eqn:E; [|discriminate].
  unfold py_truediv. now rewrite (pos_nonzero b E).
Qed.

(** C9. The three guarded quotients never raise ZeroDivisionError, and
    each is [0.0] when the quantity it would divide by is at most zero:
    the density for a total area at most zero (and with it the sampling
    rate, whose divisor is that density), the sampling rate for a density
    at most zero, the spreading rate for an application rate at most
    zero.  That [0.0] is neither negative nor a NaN. *)
Theorem zero_guards_of_derived_rates
    (total_points : Z)
    (total_area effective_points_per_workday density tonnes_per_day t_per_ha : F) :
  (Rates.points_per_ha total_points total_area <> None /\
   Rates.effective_sampling_ha_per_workday effective_points_per_workday density
     <> None /\
   Rates.spreading_ha_per_workday tonnes_per_day t_per_ha <> None) /\
  ((total_area <=? f0) = true ->
   Rates.points_per_ha total_points total_area = Some f0 /\
   Rates.effective_sampling_ha_per_workday effective_points_per_workday f0
     = Some f0) /\
  ((density <=? f0) = true ->
   Rates.effective_sampling_ha_per_workday effective_points_per_workday density
     = Some f0) /\
  ((t_per_ha <=? f0) = true ->
   Rates.spreading_ha_per_workday tonnes_per_day t_per_ha = Some f0) /\
  ((f0 : F) <? f0) = false /\ ((f0 : F) =? f0) = true.
Proof.
  unfold Rates.points_per_ha, Rates.effective_sampling_ha_per_workday,
    Rates.spreading_ha_per_workday.
  split; [repeat split; apply guarded_truediv|].
  split; [intros L; rewrite (nonpos_not_pos _ L), zero_not_neg; now split|].
  split; [intros L; now rewrite (nonpos_not_pos _ L)|].
  split; [intros L; now rewrite (nonpos_not_pos _ L)|].
  split; [apply zero_not_neg|apply zero_not_nan].
Qed.

(** X15. Through the whole derivation: with a total area at most zero,
    whenever the script gets as far as the simulation, the sampling rate it
    hands over is [0.0]. *)
Lemma derive_zero_area (w : Widgets.t F) (cfg : Config F) :
  (Widgets.total_area_ha w <=? f0) = true ->
  derive w = Some cfg ->
  effective_sampling_ha_per_workday cfg = f0.
Proof.
  intros L. unfold derive, Rates.points_per_ha.
  rewrite (nonpos_not_pos _ L).
  destruct (py_truediv _ (of_int (Widgets.workdays_per_week w))); [|discriminate].
  destruct (py_truediv _ (of_int 100)); [|discriminate].
  destruct (py_truediv _ _); [|discriminate].
  unfold Rates.effective_sampling_ha_per_workday. rewrite zero_not_neg.
  destruct (Rates.spreading_ha_per_workday _ _); [|discriminate].
  intros E. inversion E. reflexivity.
Qed.
End Guards.

(** ** The derived rates of inputs the widgets accept *)

Section DerivedExact.
Local Open Scope Q_scope.




End DerivedExact.

(** ** The scenarios as CPython runs them *)

(** In binary64 the runs of scenario B, without lag and with a lag of 3
    days, are row for row the runs of exact arithmetic: every amount is a
    small integer and no operation rounds. *)
Lemma scenario_B_binary64 :
  map (row_map Q_of_b64) (simulate (scenario_B binary64 0 0 365)) =
    map (row_map (fun q => Some (Qred q))) (simulate (scenario_B Q 0 0 365)) /\
  map (row_map Q_of_b64) (simulate (scenario_B binary64 3 0 365)) =
    map (row_map (fun q => Some (Qred q))) (simulate (scenario_B Q 3 0 365)).
Proof. split; vm_compute; reflexivity. Qed.

Lemma scenario_B_binary64_finish :
  sampling_finish_date (scenario_B binary64 0 0 365) = Some 4%Z /\
  spreading_finish_date (scenario_B binary64 0 0 365) = Some 19%Z /\
  sampling_finish_date (scenario_B binary64 3 0 365) = Some 4%Z /\
  spreading_finish_date (scenario_B binary64 3 0 365) = Some 22%Z.
Proof. refine (conj _ (conj _ (conj _ _))); vm_compute; reflexivity. Qed.

(** X19. A total area of [0.0] in binary64, whatever the rates, the work
    week and the lag: one row of zeros, and both finish dates are the start
    date. *)
Lemma zero_area_single_row_binary64 (cfg : Config binary64) :
  total_area_ha cfg = S754_zero false ->
  (1 <= max_sim_days cfg)%Z ->
  simulate cfg =
    [ {| day := 0; date := start_date cfg;
         workday := is_workday 0 (workdays_per_week cfg);
         sampled_today_ha := f0; spread_today_ha := f0;
         sampled_cum_ha := f0; spread_cum_ha := f0; backlog_ha := f0 |} ] /\
  sampling_finish_date cfg = Some (start_date cfg) /\
  spreading_finish_date cfg = Some (start_date cfg).
Proof.
  intros HT Hmax.
  assert (reached cfg f0 = true) as Hr by (unfold reached; now rewrite HT).
  assert (day_row cfg 0 f0 f0 =
    {| day := 0; date := (start_date cfg + 0)%Z;
       workday := is_workday 0 (workdays_per_week cfg);
       sampled_today_ha := f0; spread_today_ha := f0;
       sampled_cum_ha := f0; spread_cum_ha := f0; backlog_ha := f0 |}) as Hrow.
  { unfold day_row, sampling_step, spreading_step. rewrite HT.
    destruct (is_workday 0 (workdays_per_week cfg));
      destruct (0 >=? spreading_lag_days cfg)%Z; reflexivity. }
  assert (simulate cfg =
    [ {| day := 0; date := start_date cfg;
         workday := is_workday 0 (workdays_per_week cfg);
         sampled_today_ha := f0; spread_today_ha := f0;
         sampled_cum_ha := f0; spread_cum_ha := f0; backlog_ha := f0 |} ]) as Hdf.
  { rewrite simulate_run, (py_range_app 1 (max_sim_days cfg)) by lia.
    change (py_range 1) with [0%Z]. cbn [app run].
    rewrite Hrow. cbn [spread_cum_ha]. rewrite Hr, Z.add_0_r. reflexivity. }
  split; [exact Hdf|].
  unfold sampling_finish_date, spreading_finish_date, first_reached.
  rewrite Hdf. cbn [filter sampled_cum_ha spread_cum_ha]. rewrite Hr.
  split; reflexivity.
Qed.

(** ** The theorems at work on concrete runs *)


Lemma same_day_sampled_area_is_spreadable_witness :
  exists r,
    nth_error (simulate (scenario_B Q 0 0 365)) 4 = Some r /\
    workday r = true /\
    (Z.of_nat 4 >= spreading_lag_days (scenario_B Q 0 0 365))%Z /\
    (sampled_today_ha r, sampled_cum_ha r) =
      sampling_step (scenario_B Q 0 0 365) true
        (before f0 (@sampled_cum_ha Q) (simulate (scenario_B Q 0 0 365)) 4) /\
    spread_today_ha r = 5.
Proof.
  eexists.
  split; [vm_compute; reflexivity|].
  split; [reflexivity|].
  split; [vm_compute; discriminate|].
  refine ((fun W => conj (proj1 W) _)
            (same_day_sampled_area_is_spreadable (scenario_B Q 0 0 365) 4 _ _ _ _)).
  - vm_compute; reflexivity.
  - vm_compute; reflexivity.
  - reflexivity.
  - vm_compute; discriminate.
Defined.


Lemma zero_area_single_row_witness :
  total_area_ha zero_area_example == 0 /\
  (1 <= max_sim_days zero_area_example)%Z /\
  length (simulate zero_area_example) = 1%nat /\
  sampling_finish_date zero_area_example = Some 738000%Z /\
  spreading_finish_date zero_area_example = Some 738000%Z.
Proof.
  assert (total_area_ha zero_area_example == 0) as HT by reflexivity.
  assert (1 <= max_sim_days zero_area_example)%Z as Hmax by (vm_compute; discriminate).
  split; [exact HT|]. split; [exact Hmax|].
  destruct (zero_area_single_row zero_area_example HT Hmax) as (Hdf & _ & Hs & Hp).
  split; [now rewrite Hdf|]. split; [exact Hs|exact Hp].
Defined.

Lemma scenario_B_outcome_witness :
  (20 <= 365)%Z /\
  sampling_finish_date (scenario_B Q 0 0 365) = Some 4%Z /\
  spreading_finish_date (scenario_B Q 0 0 365) = Some 19%Z.
Proof.
  assert (20 <= 365)%Z as H by lia.
  split; [exact H|].
  pose proof (scenario_B_outcome 0 365 H) as W. cbv zeta in W.
  split; [exact (proj1 W)|exact (proj1 (proj2 W))].
Defined.

Lemma scenario_C_lag_shift_witness :
  (23 <= 365)%Z /\
  spreading_finish_date (scenario_B Q 0 0 365) = Some 19%Z /\
  spreading_finish_date (scenario_B Q 3 0 365) = Some 22%Z.
Proof.
  assert (23 <= 365)%Z as H by lia.
  split; [exact H|].
  pose proof (scenario_C_lag_shift 0 365 H) as W. cbv zeta in W.
  split; [exact (proj1 (proj2 W))|exact (proj1 (proj2 (proj2 W)))].
Defined.

Lemma zero_guards_of_derived_rates_witness :
  ((f0 : binary64) <=? f0)%F = true /\
  Rates.points_per_ha 13545 (f0 : binary64) = Some f0 /\
  Rates.effective_sampling_ha_per_workday (of_int 471 : binary64) f0 = Some f0.
Proof.
  split; [reflexivity|].
  exact (proj1 (proj2 (zero_guards_of_derived_rates (F := binary64)
                         13545 f0 (of_int 471) f0 (of_int 80) (of_int 40)))
               eq_refl).
Defined.

(** * Further properties of the script *)

(** ** The finish-date scans and the loop *)

Section Scans.
Context {F : Type} `{PyFloat F}.
Local Open Scope pyfloat_scope.

Lemma filter_head_nth {A : Type} (f : A -> bool) (l : list A) (x : A) (t : list A) :
  filter f l = x :: t ->
  exists i, nth_error l i = Some x /\ f x = true /\
            forall j y, (j < i)%nat -> nth_error l j = Some y -> f y = false.
Proof.
  induction l as [|a l IH]; [discriminate|]. cbn [filter].
  destruct (f a) eqn:E.
  - intros E'. inversion E'; subst. exists 0%nat.
    split; [reflexivity|]. split; [exact E|]. intros j y Hj. lia.
  - intros E'. destruct (IH E') as (i & Hi & Hx & Hmin).
    exists (S i). split; [exact Hi|]. split; [exact Hx|].
    intros [|j] y Hj Hy; cbn [nth_error] in Hy.
    + now inversion Hy; subst.
    + apply (Hmin j); [lia|exact Hy].
Qed.

Lemma filter_nil_all {A : Type} (f : A -> bool) (l : list A) :
  filter f l = [] -> forall x, In x l -> f x = false.
Proof.
  intros E x Hin. destruct (f x) eqn:Hx; [|reflexivity].
  assert (In x (filter f l)) as Hf by (apply filter_In; now split).
  rewrite E in Hf. destruct Hf.
Qed.

Lemma simulate_date (cfg : Config F) (i : nat) (r : Row F) :
  nth_error (simulate cfg) i = Some r ->
  date r = (start_date cfg + Z.of_nat i)%Z.
Proof. intros Hi. apply simulate_nth_row in Hi. now destruct Hi as [_ ->]. Qed.

(** What a finish date is: the date of the first row whose column passes
    the test. *)
Lemma first_reached_spec (cfg : Config F) (col : Row F -> F) (dt : Z) :
  first_reached cfg col (simulate cfg) = Some dt ->
  exists i r,
    nth_error (simulate cfg) i = Some r /\
    dt = (start_date cfg + Z.of_nat i)%Z /\
    reached cfg (col r) = true /\
    forall j r', (j < i)%nat -> nth_error (simulate cfg) j = Some r' ->
                 reached cfg (col r') = false.
Proof.
  unfold first_reached.
  destruct (filter _ (simulate cfg)) as [|r t] eqn:E; [discriminate|].
  intros E'. inversion E'; subst dt.
  destruct (filter_head_nth _ _ _ _ E) as (i & Hi & Hr & Hmin).
  exists i, r. split; [exact Hi|]. split; [now apply simulate_date|].
  split; [exact Hr|exact Hmin].
Qed.

Lemma first_reached_none (cfg : Config F) (col : Row F -> F) :
  first_reached cfg col (simulate cfg) = None ->
  forall r, In r (simulate cfg) -> reached cfg (col r) = false.
Proof.
  unfold first_reached.
  destruct (filter _ (simulate cfg)) as [|r t] eqn:E; [|discriminate].
  intros _. exact (filter_nil_all _ _ E).
Qed.

(** X1. The spreading finish date and the length of the table determine
    each other: when the scan finds a date, it is the date of the last row
    and the run took that many days plus one; when it finds none, the run
    used up all of [max_sim_days]. *)
Theorem spreading_finish_is_last_day (cfg : Config F) :
  match spreading_finish_date cfg with
  | Some dt =>
      (1 <= days_simulated cfg)%Z /\
      dt = (start_date cfg + (days_simulated cfg - 1))%Z
  | None => days_simulated cfg = Z.max 0 (max_sim_days cfg)
  end.
Proof.
  unfold spreading_finish_date, days_simulated.
  destruct (first_reached cfg _ (simulate cfg)) as [dt|] eqn:E.
  - destruct (first_reached_spec _ _ _ E) as (i & r & Hi & Hdt & Hr & _).
    rewrite (simulate_last_reached _ _ _ Hi Hr). split; lia.
  - rewrite (simulate_full_length cfg (first_reached_none _ _ E)). lia.
Qed.

(** X2. The table is empty exactly when [max_sim_days] is not positive;
    row [i] carries the date [start_date + i], and its backlog is computed
    from its own two totals. *)
Theorem table_rows_shape (cfg : Config F) :
  (simulate cfg = [] <-> (max_sim_days cfg <= 0)%Z) /\
  (forall i r,
      nth_error (simulate cfg) i = Some r ->
      date r = (start_date cfg + Z.of_nat i)%Z /\
      backlog_ha r = py_max (sampled_cum_ha r - spread_cum_ha r) f0).
Proof.
  split.
  - split.
    + intros E. destruct (Z_lt_le_dec 0 (max_sim_days cfg)) as [L|L]; [|exact L].
      now apply simulate_nonempty in E.
    + intros L. rewrite simulate_run. unfold py_range.
      replace (Z.to_nat (max_sim_days cfg)) with 0%nat by lia. reflexivity.
  - intros i r Hi. split; [now apply simulate_date|].
    apply simulate_nth_row in Hi. now destruct Hi as [_ ->].
Qed.

Lemma nth_error_pred {A : Type} (l : list A) (i : nat) (x : A) :
  nth_error l (S i) = Some x -> exists y, nth_error l i = Some y.
Proof.
  intros E. destruct (nth_error l i) as [y|] eqn:N; [now exists y|].
  apply nth_error_None in N.
  assert (nth_error l (S i) <> None) as S by (rewrite E; discriminate).
  apply nth_error_Some in S. lia.
Qed.

(** X3. A day off changes nothing: the row of a non-workday repeats the
    sampled total, the spread total and the backlog of the row before. *)
Theorem non_workday_keeps_totals (cfg : Config F) (i : nat) (r r' : Row F) :
  nth_error (simulate cfg) i = Some r ->
  nth_error (simulate cfg) (S i) = Some r' ->
  workday r' = false ->
  sampled_cum_ha r' = sampled_cum_ha r /\
  spread_cum_ha r' = spread_cum_ha r /\
  backlog_ha r' = backlog_ha r.
Proof.
  intros Hi Hi' Hw.
  assert (backlog_ha r = py_max (sampled_cum_ha r - spread_cum_ha r) f0) as Hb.
  { apply simulate_nth_row in Hi. now destruct Hi as [_ ->]. }
  apply simulate_nth_row in Hi'. destruct Hi' as [_ Hr'].
  cbn [before] in Hr'. rewrite Hi in Hr'.
  rewrite Hr' in Hw |- *. unfold day_row in *. cbn [workday] in Hw.
  cbn [sampled_cum_ha spread_cum_ha backlog_ha]. rewrite Hw.
  unfold sampling_step, spreading_step. cbn [andb fst snd].
  now rewrite Hb.
Qed.

(** X4. Sampling does not look at spreading: two configurations with the
    same area, sampling rate and work week record the same sampled amounts
    on every day both tables have, whatever their spreading rates, lags,
    start dates and caps. *)
Theorem sampling_ignores_spreading (cfg cfg' : Config F) :
  total_area_ha cfg' = total_area_ha cfg ->
  effective_sampling_ha_per_workday cfg' = effective_sampling_ha_per_workday cfg ->
  workdays_per_week cfg' = workdays_per_week cfg ->
  forall i r r',
    nth_error (simulate cfg) i = Some r ->
    nth_error (simulate cfg') i = Some r' ->
    sampled_today_ha r' = sampled_today_ha r /\
    sampled_cum_ha r' = sampled_cum_ha r.
Proof.
  intros HT HS HW.
  assert (forall w s, sampling_step cfg' w s = sampling_step cfg w s) as Hstep.
  { intros w s. unfold sampling_step. now rewrite HT, HS. }
  induction i as [|i IH]; intros r r' Hi Hi'.
  - apply simulate_nth_row in Hi, Hi'. destruct Hi as [_ ->], Hi' as [_ ->].
    unfold day_row. cbn [before sampled_today_ha sampled_cum_ha].
    now rewrite HW, Hstep.
  - destruct (nth_error_pred _ _ _ Hi) as [q Hq].
    destruct (nth_error_pred _ _ _ Hi') as [q' Hq'].
    destruct (IH q q' Hq Hq') as [_ Hcum].
    apply simulate_nth_row in Hi, Hi'. destruct Hi as [_ ->], Hi' as [_ ->].
    unfold day_row. cbn [before sampled_today_ha sampled_cum_ha].
    now rewrite Hq, Hq', HW, Hstep, Hcum.
Qed.
End Scans.

(** ** The work week *)

(** X5. The schedule repeats every seven days, and for a week of 0 to 7
    workdays each week of the schedule has exactly that many workdays, the
    first days of the week. *)
Theorem workdays_in_a_week (w k : Z) :
  (0 <= w <= 7)%Z ->
  Z.of_nat (length (filter (fun d => is_workday d w) (week k))) = w /\
  (forall j, (0 <= j < 7)%Z -> is_workday (7 * k + j) w = (j <? w)%Z) /\
  (forall d, is_workday (d + 7) w = is_workday d w).
Proof.
  intros Hw.
  assert (forall j, (0 <= j < 7)%Z -> is_workday (7 * k + j) w = (j <? w)%Z) as Hj.
  { intros j Hj. unfold is_workday.
    rewrite Z.add_comm, Z.mul_comm, Z_mod_plus_full, Z.mod_small by lia.
    reflexivity. }
  split; [|split; [exact Hj|]].
  - unfold week. cbn [map filter]. rewrite !Hj by lia.
    assert (w = 0 \/ w = 1 \/ w = 2 \/ w = 3 \/ w = 4 \/ w = 5 \/ w = 6 \/ w = 7)%Z
      as C by lia.
    destruct C as [->|[->|[->|[->|[->|[->|[->| ->]]]]]]]; reflexivity.
  - intros d. unfold is_workday.
    replace (d + 7)%Z with (d + 1 * 7)%Z by lia.
    now rewrite Z_mod_plus_full.
Qed.

(** ** Daily amounts and running totals, in exact arithmetic *)

Section Amounts.
Local Open Scope Q_scope.
Variable cfg : Config Q.





Hypothesis sampling_nonneg : 0 <= effective_sampling_ha_per_workday cfg.
Hypothesis spreading_nonneg : 0 <= spreading_ha_per_workday cfg.




End Amounts.

Local Open Scope Q_scope.


(** ** Finishing, in exact arithmetic *)








(** ** Idle crews and crews that keep up, in exact arithmetic *)




Section Cases.
Local Open Scope Q_scope.
Variable cfg : Config Q.


End Cases.


Local Open Scope Q_scope.









(** ** The derivation of the rates, in exact arithmetic *)










(** ** The sampled total in closed form *)





(** ** The further properties at work on concrete runs *)



Lemma non_workday_keeps_totals_witness :
  exists r r',
    nth_error (simulate weekend_example) 4 = Some r /\
    nth_error (simulate weekend_example) 5 = Some r' /\
    workday r' = false /\
    sampled_cum_ha r' = sampled_cum_ha r /\
    spread_cum_ha r' = spread_cum_ha r /\
    backlog_ha r' = backlog_ha r.
Proof.
  eexists. eexists.
  split; [vm_compute; reflexivity|].
  split; [vm_compute; reflexivity|].
  split; [reflexivity|].
  apply (non_workday_keeps_totals weekend_example 4).
  - vm_compute; reflexivity.
  - vm_compute; reflexivity.
  - reflexivity.
Defined.

Lemma sampling_ignores_spreading_witness :
  total_area_ha (scenario_B Q 3 0 365) = total_area_ha (scenario_B Q 0 0 365) /\
  exists r r',
    nth_error (simulate (scenario_B Q 0 0 365)) 10 = Some r /\
    nth_error (simulate (scenario_B Q 3 0 365)) 10 = Some r' /\
    sampled_today_ha r' = sampled_today_ha r /\
    sampled_cum_ha r' = sampled_cum_ha r.
Proof.
  split; [reflexivity|].
  eexists. eexists.
  split; [vm_compute; reflexivity|].
  split; [vm_compute; reflexivity|].
  apply (sampling_ignores_spreading (scenario_B Q 0 0 365) (scenario_B Q 3 0 365)
           eq_refl eq_refl eq_refl 10%nat).
  - vm_compute; reflexivity.
  - vm_compute; reflexivity.
Defined.

Lemma workdays_in_a_week_witness :
  (0 <= 5 <= 7)%Z /\
  Z.of_nat (length (filter (fun d => is_workday d 5) (week 3))) = 5%Z.
Proof.
  assert (0 <= 5 <= 7)%Z as H by lia.
  split; [exact H|]. exact (proj1 (workdays_in_a_week 5 3 H)).
Defined.










Lemma derive_zero_area_witness :
  (Widgets.total_area_ha zero_area_widgets <=? f0)%F = true /\
  exists cfg,
    derive zero_area_widgets = Some cfg /\
    effective_sampling_ha_per_workday cfg = f0.
Proof.
  split; [reflexivity|].
  destruct (derive zero_area_widgets) as [cfg|] eqn:E; [|vm_compute in E; discriminate].
  exists cfg. split; [reflexivity|].
  exact (derive_zero_area zero_area_widgets cfg eq_refl E).
Defined.



Lemma zero_area_single_row_binary64_witness :
  total_area_ha zero_area_binary64 = S754_zero false /\
  (1 <= max_sim_days zero_area_binary64)%Z /\
  length (simulate zero_area_binary64) = 1%nat /\
  spreading_finish_date zero_area_binary64 = Some 738000%Z.
Proof.
  assert (1 <= max_sim_days zero_area_binary64)%Z as Hmax by (cbn; lia).
  split; [reflexivity|]. split; [exact Hmax|].
  destruct (zero_area_single_row_binary64 zero_area_binary64 eq_refl Hmax)
    as (Hdf & _ & Hp).
  split; [now rewrite Hdf|exact Hp].
Defined.

